(** * Healthcare appointment assistant: the lookup tools and their tables

    A shallow embedding of [pydanticAI/src/healthcare_appointments.py]:
    the pydantic data classes, the three module-level dictionaries, the
    four tool functions and the dynamic system prompt.  Module-level
    dictionaries are Python globals, so every function is a computation
    over the record of globals that may return or raise. *)

From stdpp Require Import base option gmap strings list.

(** ** Python values *)

(** A [Dict] whose keys and values are all [str], as every inner
    dictionary of the tables is. *)
Abbreviation PyDict := (gmap string string).

(** What an f-string prints for the result of [d.get(k)]: the value
    itself, or the text of [None]. *)
Definition py_str (v : option string) : string := default "None" v.

(** [sep.join(items)] *)
Fixpoint join (sep : string) (items : list string) : string :=
  match items with
  | [] => ""
  | [x] => x
  | x :: rest => x +:+ sep +:+ join sep rest
  end.

(** [sub in s] *)
Definition contains (s sub : string) : Prop :=
  ∃ pre post, s = pre +:+ sub +:+ post.

(** [datetime.date] *)
Record PyDate := { year : Z; month : Z; day : Z }.

(** ** Data classes *)

Record HealthcareResponseModel := {
  response : string;
  urgency_level : string;
  appointment_needed : bool;
  follow_up_required : bool;
  department_referral : option string }.

Record Appointment := {
  appointment_id : string;
  date : PyDate;
  time : string;
  doctor_name : string;
  department : string;
  status : string }.

Record PatientDetails := {
  patient_id : string;
  name : string;
  email : string;
  phone : string;
  medical_record_number : string;
  appointments : option (list Appointment);
  insurance_provider : option string }.

(** [RunContext[PatientDetails]]: the tools only read [ctx.deps]. *)
Record RunContext := { deps : PatientDetails }.

(** ** Module-level tables *)

Definition appointment_db : gmap string PyDict :=
  <["A001" := <["date" := "2024-12-15"]> (<["time" := "10:00 AM"]>
                (<["doctor" := "Dr. Smith"]> (<["department" := "Cardiology"]>
                (<["status" := "scheduled"]> ∅))))]>
  (<["A002" := <["date" := "2024-12-20"]> (<["time" := "2:30 PM"]>
                (<["doctor" := "Dr. Johnson"]> (<["department" := "Dermatology"]>
                (<["status" := "confirmed"]> ∅))))]> ∅).

Definition doctor_availability : gmap string (list string) :=
  <["Dr. Smith" := ["Monday"; "Wednesday"; "Friday"] ]>
  (<["Dr. Johnson" := ["Tuesday"; "Thursday"] ]>
  (<["Dr. Williams" := ["Monday"; "Tuesday"; "Wednesday"; "Thursday"; "Friday"] ]> ∅)).

Definition comprehensive_appointment_db : gmap string PyDict :=
  <["APT-12345" := <["date" := "2024-12-15"]> (<["time" := "10:00 AM"]>
                (<["doctor" := "Dr. Smith"]> (<["department" := "Cardiology"]>
                (<["status" := "scheduled"]> (<["patient_id" := "P001"]> ∅)))))]>
  (<["APT-67890" := <["date" := "2024-12-20"]> (<["time" := "2:30 PM"]>
                (<["doctor" := "Dr. Johnson"]> (<["department" := "Dermatology"]>
                (<["status" := "confirmed"]> (<["patient_id" := "P002"]> ∅)))))]> ∅).

(** The globals a tool can reach. *)
Record Globals := {
  g_appointment_db : gmap string PyDict;
  g_doctor_availability : gmap string (list string);
  g_comprehensive_appointment_db : gmap string PyDict }.

(** The globals as the module body leaves them. *)
Definition module_globals : Globals := {|
  g_appointment_db := appointment_db;
  g_doctor_availability := doctor_availability;
  g_comprehensive_appointment_db := comprehensive_appointment_db |}.

(** ** Computations that read globals and may raise *)

Inductive Raised :=
| ModelRetry (message : string)
| KeyError (key : string).

Inductive Outcome (A : Type) :=
| Returned (a : A)
| Raise (e : Raised).
Arguments Returned {A} a.
Arguments Raise {A} e.

Definition Py (A : Type) : Type := Globals → Outcome A * Globals.

#[global] Instance Py_ret : MRet Py := λ A a g, (Returned a, g).

#[global] Instance Py_bind : MBind Py := λ A B k m g,
  match m g with
  | (Returned a, g') => k a g'
  | (Raise e, g') => (Raise e, g')
  end.

(** [raise e] *)
Definition raise {A} (e : Raised) : Py A := λ g, (Raise e, g).

(** Reading a global name. *)
Definition global {A} (name : Globals → A) : Py A := λ g, (Returned (name g), g).

(** [d[k]] *)
Definition subscript (d : PyDict) (k : string) : Py string :=
  match d !! k with
  | Some v => mret v
  | None => raise (KeyError k)
  end.

(** ** Patient fixtures *)

Definition patient : PatientDetails := {|
  patient_id := "P001";
  name := "Jane Doe";
  email := "jane.doe@email.com";
  phone := "555-0123";
  medical_record_number := "MRN-789456";
  insurance_provider := Some "Blue Cross Blue Shield";
  appointments := Some [ {|
    appointment_id := "A001";
    date := {| year := 2024; month := 12; day := 15 |};
    time := "10:00 AM";
    doctor_name := "Dr. Smith";
    department := "Cardiology";
    status := "scheduled" |} ] |}.

Definition patient_validation : PatientDetails := {|
  patient_id := "P001";
  name := "Jane Doe";
  email := "jane.doe@email.com";
  phone := "555-0123";
  medical_record_number := "MRN-789456";
  appointments := None;
  insurance_provider := None |}.

(** ** Tools of [agent4] *)

Definition get_appointment_details (ctx : RunContext) : Py string :=
  match appointments (deps ctx) with
  | Some (appointment :: _) =>
      db ← global g_appointment_db;
      let details : PyDict := default ∅ (db !! appointment_id appointment) in
      mret ("Appointment " +:+ appointment_id appointment +:+ ": "
            +:+ py_str (details !! "date") +:+ " at "
            +:+ py_str (details !! "time") +:+ " with "
            +:+ py_str (details !! "doctor") +:+ " in "
            +:+ py_str (details !! "department"))
  | Some [] | None => mret "No appointments found"
  end.

Definition check_doctor_availability (doctor_name : string) : Py string :=
  table ← global g_doctor_availability;
  let available_days := default [] (table !! doctor_name) in
  match available_days with
  | _ :: _ =>
      mret (doctor_name +:+ " is available on: " +:+ join ", " available_days)
  | [] => mret ("No availability information found for " +:+ doctor_name)
  end.

(** ** Tools of [agent5] *)

Definition get_appointment_status (appointment_id : string) : Py string :=
  db ← global g_comprehensive_appointment_db;
  match db !! appointment_id with
  | None =>
      raise (ModelRetry
        ("No appointment found for ID " +:+ appointment_id +:+ ". "
         +:+ "Please ensure the appointment ID is in the correct format (APT-XXXXX) "
         +:+ "and verify with the patient. Self-correct if needed and try again."))
  | Some appointment_info =>
      d ← subscript appointment_info "date";
      t ← subscript appointment_info "time";
      doc ← subscript appointment_info "doctor";
      dep ← subscript appointment_info "department";
      st ← subscript appointment_info "status";
      mret ("Appointment " +:+ appointment_id +:+ ": " +:+ d +:+ " at " +:+ t
            +:+ " with " +:+ doc +:+ " (" +:+ dep +:+ ") - Status: " +:+ st)
  end.

Definition validate_patient_appointment (appointment_id patient_id : string)
  : Py string :=
  db ← global g_comprehensive_appointment_db;
  match db !! appointment_id with
  | None =>
      raise (ModelRetry ("Appointment " +:+ appointment_id
                         +:+ " not found. Please verify the appointment ID format."))
  | Some appointment_info =>
      if decide (appointment_info !! "patient_id" ≠ Some patient_id) then
        raise (ModelRetry
          ("Appointment " +:+ appointment_id +:+ " does not belong to patient "
           +:+ patient_id +:+ ". "
           +:+ "This is a HIPAA violation. Please verify patient identity before providing appointment information."))
      else
        mret ("Appointment " +:+ appointment_id +:+ " verified for patient "
              +:+ patient_id)
  end.

(** ** Dynamic system prompt of [agent3] and [agent4] *)

(** A pydantic model is an object: [ctx.deps] is a reference to the
    patient record, and whoever is handed the reference can read the
    record and could assign to its fields.  The prompt function
    therefore runs over the module globals and the store of record
    objects. *)
Record PromptState := {
  ps_globals : Globals;
  ps_objects : gmap nat PatientDetails }.

Definition Prompt (A : Type) : Type := PromptState → Outcome A * PromptState.

Definition prompt_ret {A} (a : A) : Prompt A := λ s, (Returned a, s).

Definition prompt_bind {A B} (m : Prompt A) (k : A → Prompt B) : Prompt B :=
  λ s,
  match m s with
  | (Returned a, s') => k a s'
  | (Raise e, s') => (Raise e, s')
  end.

(** [RunContext[PatientDetails]] as the prompt function receives it:
    [ctx.deps] is the reference. *)
Record PromptContext := { deps_ref : nat }.

(** Modelled from the spec: [utils.markdown.to_markdown] is imported by the
    module but its file is not among the sources.  It is a parameter of
    the model: some computation that is handed the reference of the
    object to render. *)
Definition MarkdownRenderer : Type := nat → Prompt string.


Definition add_patient_context (to_markdown : MarkdownRenderer)
    (ctx : PromptContext) : Prompt string :=
  prompt_bind (to_markdown (deps_ref ctx))
    (λ text, prompt_ret ("Patient information: " +:+ text)).

(** A renderer that keeps the promise, for the examples: a heading with
    the patient's name and id. *)
Definition heading_of (record : PatientDetails) : string :=
  "## " +:+ name record +:+ " (" +:+ patient_id record +:+ ")".


(** A renderer that breaks the promise: it renders the same heading and
    drops the record's appointments on the way. *)
Definition clearing_renderer : MarkdownRenderer := λ ref s,
  match ps_objects s !! ref with
  | Some record =>
      (Returned (heading_of record),
       {| ps_globals := ps_globals s;
          ps_objects :=
            <[ref := {| patient_id := patient_id record;
                        name := name record;
                        email := email record;
                        phone := phone record;
                        medical_record_number := medical_record_number record;
                        appointments := None;
                        insurance_provider := insurance_provider record |}]>
              (ps_objects s) |})
  | None => (Returned "", s)
  end.

(** The state of the [agent3] example: the module globals and the
    [patient] fixture as the only object. *)
Definition patient_state : PromptState := {|
  ps_globals := module_globals;
  ps_objects := {[ 0 := patient ]} |}.

(** ** Agents *)



(** ** Tool invocations as the host performs them *)

Inductive ToolCall :=
| call_get_appointment_details (ctx : RunContext)
| call_check_doctor_availability (doctor_name : string)
| call_get_appointment_status (appointment_id : string)
| call_validate_patient_appointment (appointment_id patient_id : string).

Definition invoke (c : ToolCall) : Py string :=
  match c with
  | call_get_appointment_details ctx => get_appointment_details ctx
  | call_check_doctor_availability d => check_doctor_availability d
  | call_get_appointment_status a => get_appointment_status a
  | call_validate_patient_appointment a p => validate_patient_appointment a p
  end.

(** The host resolves the requested calls one at a time; a raised
    exception ends that call only, the next call still runs. *)
Fixpoint invoke_all (calls : list ToolCall) (g : Globals)
  : list (Outcome string) * Globals :=
  match calls with
  | [] => ([], g)
  | c :: rest =>
      let '(r, g') := invoke c g in
      let '(rs, g'') := invoke_all rest g' in
      (r :: rs, g'')
  end.

(** ** Validation of a structured reply *)

(** A decoded scalar of the model's raw output. *)
Inductive Json :=
| JNull
| JBool (b : bool)
| JInt (z : Z)
| JStr (s : string).

Inductive ValidationError :=
| missing (field : string)
| string_type (field : string)
| bool_type (field : string).

(** A field annotated [str]. *)
Definition validate_str (raw : gmap string Json) (field : string)
  : ValidationError + string :=
  match raw !! field with
  | None => inl (missing field)
  | Some (JStr s) => inr s
  | Some _ => inl (string_type field)
  end.

(** How the validation library reads a scalar as a [bool].  The library
    is not part of the sources: its reading is a parameter of the model,
    of which only one thing is used, that a boolean is read as itself. *)
Definition BoolReading : Type := Json → option bool.

Definition reads_booleans (as_bool : BoolReading) : Prop :=
  ∀ b, as_bool (JBool b) = Some b.

(** The reading that accepts booleans and nothing else. *)
Definition strict_bool : BoolReading := λ v,
  match v with
  | JBool b => Some b
  | _ => None
  end.

(** A field annotated [bool]. *)
Definition validate_bool (as_bool : BoolReading) (raw : gmap string Json)
    (field : string) : ValidationError + bool :=
  match raw !! field with
  | None => inl (missing field)
  | Some v =>
      match as_bool v with
      | Some b => inr b
      | None => inl (bool_type field)
      end
  end.

(** A field annotated [Optional[str]] without a default: the key has to
    be there, its value may be [None]. *)
Definition validate_optional_str (raw : gmap string Json) (field : string)
  : ValidationError + option string :=
  match raw !! field with
  | None => inl (missing field)
  | Some JNull => inr None
  | Some (JStr s) => inr (Some s)
  | Some _ => inl (string_type field)
  end.

(** [HealthcareResponseModel.model_validate(raw)]: the fields in the order
    of their declaration, each against its annotation.  The [description]
    of a field is documentation for the model and takes no part. *)
Definition model_validate (as_bool : BoolReading) (raw : gmap string Json)
  : ValidationError + HealthcareResponseModel :=
  match validate_str raw "response" with
  | inl e => inl e
  | inr r =>
  match validate_str raw "urgency_level" with
  | inl e => inl e
  | inr u =>
  match validate_bool as_bool raw "appointment_needed" with
  | inl e => inl e
  | inr a =>
  match validate_bool as_bool raw "follow_up_required" with
  | inl e => inl e
  | inr f =>
  match validate_optional_str raw "department_referral" with
  | inl e => inl e
  | inr d =>
      inr {| response := r; urgency_level := u; appointment_needed := a;
             follow_up_required := f; department_referral := d |}
  end end end end end.

(** The labels the description of [urgency_level] lists. *)
Definition urgency_labels : list string := ["routine"; "urgent"; "emergency"].

(** A reply with every field well typed and an urgency that the
    description does not list. *)
Definition critical_reply : gmap string Json :=
  <["response" := JStr "Please call the front desk."]>
  (<["urgency_level" := JStr "critical"]>
  (<["appointment_needed" := JBool true]>
  (<["follow_up_required" := JBool false]>
  (<["department_referral" := JNull]> ∅)))).

(** A computation that leaves the globals as it found them. *)
Definition read_only {A} (m : Py A) : Prop := ∀ g, (m g).2 = g.

(** ** The retry policy of a run *)

Module Retry.

(** Modelled from the spec: the loop that resubmits a request after a
    retryable failure belongs to the agent framework and is not among the
    sources; only its budget, [retries=3] of [agent5], is.  The states and
    transitions follow the state machine of the self-correction section:
    a dispatched request either succeeds, or its tool raises the
    retryable signal and the request is corrected with the hint and
    dispatched again, until the budget is used up; any other exception
    propagates unchanged.  The budget is what the keyword of the source
    calls it, a number of retries: resubmissions after the first
    attempt. *)
Inductive RunState :=
| DISPATCHED (attempt : nat) (conversation : list string)
| CORRECTED_AND_RESUBMITTED (attempt : nat) (conversation : list string)
| Completed (attempts : nat) (value : string)
| HardFailure (attempts : nat) (conversation : list string)
| Propagated (attempts : nat) (e : Raised).




Section Loop.

(** The retry budget, and the outcome of the tool call the model issues
    for a given conversation. *)
Variable max_retries : nat.
Variable lookup : list string → Outcome string.

(** Modelled from the spec: one transition of the state machine above.
    The [n]-th attempt has used [n - 1] retries, so it may be resubmitted
    as long as [n] does not exceed the budget. *)
Definition step (s : RunState) : RunState :=
  match s with
  | DISPATCHED n conversation =>
      match lookup conversation with
      | Returned v => Completed n v
      | Raise (ModelRetry hint) =>
          if decide (n ≤ max_retries)
          then CORRECTED_AND_RESUBMITTED n (conversation ++ [hint])
          else HardFailure n conversation
      | Raise e => Propagated n e
      end
  | CORRECTED_AND_RESUBMITTED n conversation => DISPATCHED (S n) conversation
  | Completed _ _ | HardFailure _ _ | Propagated _ _ => s
  end.

(** Modelled from the spec: the machine driven for [fuel] transitions; a
    terminal state is left as it is. *)
Fixpoint run (fuel : nat) (s : RunState) : RunState :=
  match fuel with
  | 0 => s
  | S fuel' => run fuel' (step s)
  end.

End Loop.


End Retry.

(** ** Views used by the properties of the tools *)

(** The keys [get_appointment_status] subscripts, in the order in which
    its f-string evaluates them. *)
Definition status_keys : list string :=
  ["date"; "time"; "doctor"; "department"; "status"].

(** What [get_appointment_status] does once the entry of the id is at
    hand: the subscripts one after the other, then the text. *)
Definition status_of_entry (appointment_id : string) (info : PyDict)
  : Outcome string :=
  match info !! "date" with
  | None => Raise (KeyError "date")
  | Some d =>
  match info !! "time" with
  | None => Raise (KeyError "time")
  | Some t =>
  match info !! "doctor" with
  | None => Raise (KeyError "doctor")
  | Some doc =>
  match info !! "department" with
  | None => Raise (KeyError "department")
  | Some dep =>
  match info !! "status" with
  | None => Raise (KeyError "status")
  | Some st =>
      Returned ("Appointment " +:+ appointment_id +:+ ": " +:+ d +:+ " at "
                +:+ t +:+ " with " +:+ doc +:+ " (" +:+ dep
                +:+ ") - Status: " +:+ st)
  end end end end end.

(** The globals with another comprehensive table bound to the name. *)
Definition with_comprehensive (db : gmap string PyDict) (g : Globals)
  : Globals := {|
  g_appointment_db := g_appointment_db g;
  g_doctor_availability := g_doctor_availability g;
  g_comprehensive_appointment_db := db |}.

(** * Properties *)

(** ** Strings *)

Lemma append_cons a (s t : string) :
  String a s +:+ t = String a (s +:+ t).
Proof. reflexivity. Qed.

Lemma append_assoc (s t u : string) : (s +:+ t) +:+ u = s +:+ t +:+ u.
Proof.
  induction s as [|a s IH]; [reflexivity|].
  rewrite !append_cons. by rewrite IH.
Qed.

Lemma append_empty_r (s : string) : s +:+ "" = s.
Proof.
  induction s as [|a s IH]; [reflexivity|].
  rewrite append_cons. by rewrite IH.
Qed.

Lemma contains_refl (s : string) : contains s s.
Proof. exists "", "". by rewrite append_empty_r. Qed.

Lemma contains_head (sub post : string) : contains (sub +:+ post) sub.
Proof. by exists "", post. Qed.

Lemma contains_skip (pre s sub : string) :
  contains s sub → contains (pre +:+ s) sub.
Proof.
  intros (p & q & ->). exists (pre +:+ p), q. by rewrite append_assoc.
Qed.

Lemma contains_literal (pre sub post : string) :
  contains (pre +:+ sub +:+ post) sub.
Proof. by exists pre, post. Qed.

Ltac find_part :=
  repeat first
    [ apply contains_refl | apply contains_head | apply contains_skip ].

(** ** Running a computation *)

Lemma bind_global {A B} (name : Globals → A) (k : A → Py B) (g : Globals) :
  (global name ≫= k) g = k (name g) g.
Proof. reflexivity. Qed.

Lemma bind_subscript_Some {B} (d : PyDict) (key v : string) (k : string → Py B)
    (g : Globals) :
  d !! key = Some v → (subscript d key ≫= k) g = k v g.
Proof. intros H. unfold subscript, mbind, Py_bind. by rewrite H. Qed.

(** ** The tables *)

Lemma comprehensive_lookup_Some (appointment_id : string) (info : PyDict) :
  comprehensive_appointment_db !! appointment_id = Some info →
  appointment_id = "APT-12345" ∧
    comprehensive_appointment_db !! "APT-12345" = Some info
  ∨ appointment_id = "APT-67890" ∧
    comprehensive_appointment_db !! "APT-67890" = Some info.
Proof.
  intros H. pose proof H as H'. unfold comprehensive_appointment_db in H'.
  apply lookup_insert_Some in H' as [[<- _]|[_ H']]; [by left|].
  apply lookup_insert_Some in H' as [[<- _]|[_ H']]; [by right|].
  by rewrite lookup_empty in H'.
Qed.

(** Every entry of the comprehensive table carries the five keys that
    [get_appointment_status] subscripts. *)
Lemma comprehensive_entry_fields (appointment_id : string) (info : PyDict) :
  comprehensive_appointment_db !! appointment_id = Some info →
  ∃ d t doc dep st,
    info !! "date" = Some d ∧ info !! "time" = Some t ∧
    info !! "doctor" = Some doc ∧ info !! "department" = Some dep ∧
    info !! "status" = Some st.
Proof.
  intros [[_ H]|[_ H]]%comprehensive_lookup_Some;
    unfold comprehensive_appointment_db in H.
  - rewrite lookup_insert_eq in H. injection H as <-.
    eexists _, _, _, _, _. repeat split; vm_compute; reflexivity.
  - rewrite lookup_insert_ne, lookup_insert_eq in H by discriminate.
    injection H as <-.
    eexists _, _, _, _, _. repeat split; vm_compute; reflexivity.
Qed.

(** ** [get_appointment_status] *)

Lemma get_appointment_status_None (g : Globals) (appointment_id : string) :
  g_comprehensive_appointment_db g !! appointment_id = None →
  get_appointment_status appointment_id g =
  (Raise (ModelRetry
     ("No appointment found for ID " +:+ appointment_id +:+ ". "
      +:+ "Please ensure the appointment ID is in the correct format (APT-XXXXX) "
      +:+ "and verify with the patient. Self-correct if needed and try again.")),
   g).
Proof.
  intros H. unfold get_appointment_status. rewrite bind_global. by rewrite H.
Qed.

Lemma get_appointment_status_Some (g : Globals) (appointment_id : string)
    (info : PyDict) (d t doc dep st : string) :
  g_comprehensive_appointment_db g !! appointment_id = Some info →
  info !! "date" = Some d → info !! "time" = Some t →
  info !! "doctor" = Some doc → info !! "department" = Some dep →
  info !! "status" = Some st →
  get_appointment_status appointment_id g =
  (Returned ("Appointment " +:+ appointment_id +:+ ": " +:+ d +:+ " at " +:+ t
             +:+ " with " +:+ doc +:+ " (" +:+ dep +:+ ") - Status: " +:+ st),
   g).
Proof.
  intros H Hd Ht Hdoc Hdep Hst.
  unfold get_appointment_status. rewrite bind_global, H.
  rewrite (bind_subscript_Some _ _ _ _ _ Hd).
  rewrite (bind_subscript_Some _ _ _ _ _ Ht).
  rewrite (bind_subscript_Some _ _ _ _ _ Hdoc).
  rewrite (bind_subscript_Some _ _ _ _ _ Hdep).
  by rewrite (bind_subscript_Some _ _ _ _ _ Hst).
Qed.

Lemma comprehensive_lookup_12345 :
  comprehensive_appointment_db !! "12345" = None.
Proof. vm_compute. reflexivity. Qed.

Lemma comprehensive_lookup_APT_00000 :
  comprehensive_appointment_db !! "APT-00000" = None.
Proof. vm_compute. reflexivity. Qed.

(** C2: [get_appointment_status] returns a value exactly for the keys of
    the comprehensive appointment table.  For a key, the returned text
    contains the entry's date, time, doctor and department; for any other
    id the call raises [ModelRetry] with a hint that names the id and the
    expected format.  Both hold in particular for "APT-12345", and for
    "12345" and "APT-00000". *)
Theorem get_appointment_status_returns_iff_known :
  (∀ appointment_id : string,
     let r := (get_appointment_status appointment_id module_globals).1 in
     ((∃ v, r = Returned v) ↔
      is_Some (comprehensive_appointment_db !! appointment_id))
     ∧ (∀ info, comprehensive_appointment_db !! appointment_id = Some info →
          ∃ v d t doc dep,
            r = Returned v ∧
            info !! "date" = Some d ∧ info !! "time" = Some t ∧
            info !! "doctor" = Some doc ∧ info !! "department" = Some dep ∧
            contains v d ∧ contains v t ∧ contains v doc ∧ contains v dep)
     ∧ (comprehensive_appointment_db !! appointment_id = None →
          ∃ hint, r = Raise (ModelRetry hint) ∧
            contains hint appointment_id ∧ contains hint "(APT-XXXXX)"))
  ∧ (get_appointment_status "APT-12345" module_globals).1 =
      Returned "Appointment APT-12345: 2024-12-15 at 10:00 AM with Dr. Smith (Cardiology) - Status: scheduled"
  ∧ (∃ hint, (get_appointment_status "12345" module_globals).1 =
               Raise (ModelRetry hint))
  ∧ (∃ hint, (get_appointment_status "APT-00000" module_globals).1 =
               Raise (ModelRetry hint)).
Proof.
  assert (Hsome : ∀ appointment_id info,
    comprehensive_appointment_db !! appointment_id = Some info →
    ∃ v d t doc dep,
      (get_appointment_status appointment_id module_globals).1 = Returned v ∧
      info !! "date" = Some d ∧ info !! "time" = Some t ∧
      info !! "doctor" = Some doc ∧ info !! "department" = Some dep ∧
      contains v d ∧ contains v t ∧ contains v doc ∧ contains v dep).
  { intros appointment_id info H.
    destruct (comprehensive_entry_fields _ _ H)
      as (d & t & doc & dep & st & Hd & Ht & Hdoc & Hdep & Hst).
    eexists _, d, t, doc, dep.
    rewrite (get_appointment_status_Some module_globals _ _ _ _ _ _ _
               H Hd Ht Hdoc Hdep Hst).
    split; [reflexivity|]. repeat (split; [assumption|]).
    repeat split; find_part. }
  assert (Hnone : ∀ appointment_id,
    comprehensive_appointment_db !! appointment_id = None →
    ∃ hint,
      (get_appointment_status appointment_id module_globals).1 =
        Raise (ModelRetry hint) ∧
      contains hint appointment_id ∧ contains hint "(APT-XXXXX)").
  { intros appointment_id H.
    rewrite (get_appointment_status_None module_globals _ H).
    eexists. split; [reflexivity|]. split; [find_part|].
    apply contains_skip, contains_skip.
    apply (contains_literal
             ". Please ensure the appointment ID is in the correct format "
             "(APT-XXXXX)"). }
  split; [|split; [|split]].
  - intros appointment_id r. subst r. split; [|split].
    + split.
      * intros [v Hv].
        destruct (comprehensive_appointment_db !! appointment_id) as [info|] eqn:E;
          [by eexists|].
        destruct (Hnone _ E) as (hint & Hr & _). congruence.
      * intros [info E]. destruct (Hsome _ _ E) as (v & _ & _ & _ & _ & Hv & _).
        by exists v.
    + apply Hsome.
    + apply Hnone.
  - vm_compute. reflexivity.
  - destruct (Hnone _ comprehensive_lookup_12345) as (hint & H & _). by exists hint.
  - destruct (Hnone _ comprehensive_lookup_APT_00000) as (hint & H & _).
    by exists hint.
Qed.

(** ** [validate_patient_appointment] *)

Lemma validate_patient_appointment_None (g : Globals)
    (appointment_id patient_id : string) :
  g_comprehensive_appointment_db g !! appointment_id = None →
  validate_patient_appointment appointment_id patient_id g =
  (Raise (ModelRetry ("Appointment " +:+ appointment_id
                      +:+ " not found. Please verify the appointment ID format.")),
   g).
Proof.
  intros H. unfold validate_patient_appointment. rewrite bind_global.
  by rewrite H.
Qed.

Lemma validate_patient_appointment_mismatch (g : Globals)
    (appointment_id patient_id : string) (info : PyDict) :
  g_comprehensive_appointment_db g !! appointment_id = Some info →
  info !! "patient_id" ≠ Some patient_id →
  validate_patient_appointment appointment_id patient_id g =
  (Raise (ModelRetry
     ("Appointment " +:+ appointment_id +:+ " does not belong to patient "
      +:+ patient_id +:+ ". "
      +:+ "This is a HIPAA violation. Please verify patient identity before providing appointment information.")),
   g).
Proof.
  intros H Hne. unfold validate_patient_appointment. rewrite bind_global, H.
  by rewrite decide_True.
Qed.

Lemma validate_patient_appointment_match (g : Globals)
    (appointment_id patient_id : string) (info : PyDict) :
  g_comprehensive_appointment_db g !! appointment_id = Some info →
  info !! "patient_id" = Some patient_id →
  validate_patient_appointment appointment_id patient_id g =
  (Returned ("Appointment " +:+ appointment_id +:+ " verified for patient "
             +:+ patient_id),
   g).
Proof.
  intros H He. unfold validate_patient_appointment. rewrite bind_global, H.
  rewrite decide_False; [done|]. by intros [].
Qed.

(** C3: for an appointment id of the comprehensive table whose entry is
    owned by another patient than the one supplied,
    [validate_patient_appointment] raises [ModelRetry] with a hint that
    cites a HIPAA violation and names both ids; it does not return. *)
Theorem validate_patient_appointment_foreign_owner
    (appointment_id patient_id owner : string) (info : PyDict) :
  comprehensive_appointment_db !! appointment_id = Some info →
  info !! "patient_id" = Some owner →
  owner ≠ patient_id →
  ∃ hint,
    (validate_patient_appointment appointment_id patient_id module_globals).1 =
      Raise (ModelRetry hint) ∧
    contains hint "This is a HIPAA violation" ∧
    contains hint appointment_id ∧ contains hint patient_id.
Proof.
  intros H Howner Hne.
  rewrite (validate_patient_appointment_mismatch module_globals _ _ info H)
    by (rewrite Howner; congruence).
  eexists. split; [reflexivity|]. split; [|split; find_part].
  do 4 apply contains_skip.
  exact (contains_literal ". " "This is a HIPAA violation"
    ". Please verify patient identity before providing appointment information.").
Qed.

Lemma validate_patient_appointment_foreign_owner_witness :
  ∃ hint,
    (validate_patient_appointment "APT-67890" "P001" module_globals).1 =
      Raise (ModelRetry hint) ∧
    contains hint "This is a HIPAA violation" ∧
    contains hint "APT-67890" ∧ contains hint "P001".
Proof.
  apply (validate_patient_appointment_foreign_owner "APT-67890" "P001" "P002"
           (<["date" := "2024-12-20"]> (<["time" := "2:30 PM"]>
           (<["doctor" := "Dr. Johnson"]> (<["department" := "Dermatology"]>
           (<["status" := "confirmed"]> (<["patient_id" := "P002"]> ∅))))))).
  - vm_compute. reflexivity.
  - vm_compute. reflexivity.
  - discriminate.
Defined.

(** C10: [validate_patient_appointment] looks the id up before it compares
    owners.  For an id outside the comprehensive table it raises the
    "not found" retry whatever patient id is supplied, never the HIPAA
    one; it returns, with the "verified" text, exactly when the id is in
    the table and the entry's [patient_id] is the supplied one. *)
Theorem validate_patient_appointment_existence_first
    (appointment_id patient_id : string) :
  let r := (validate_patient_appointment appointment_id patient_id
              module_globals).1 in
  (comprehensive_appointment_db !! appointment_id = None →
     r = Raise (ModelRetry ("Appointment " +:+ appointment_id
           +:+ " not found. Please verify the appointment ID format."))
     ∧ ∀ p, r ≠ Raise (ModelRetry
         ("Appointment " +:+ appointment_id +:+ " does not belong to patient "
          +:+ p +:+ ". "
          +:+ "This is a HIPAA violation. Please verify patient identity before providing appointment information.")))
  ∧ ((∃ v, r = Returned v) ↔
     ∃ info, comprehensive_appointment_db !! appointment_id = Some info ∧
             info !! "patient_id" = Some patient_id)
  ∧ (∀ v, r = Returned v →
       v = "Appointment " +:+ appointment_id +:+ " verified for patient "
           +:+ patient_id).
Proof.
  intros r. subst r.
  destruct (comprehensive_appointment_db !! appointment_id) as [info|] eqn:E.
  - destruct (decide (info !! "patient_id" = Some patient_id)) as [He|Hne].
    + rewrite (validate_patient_appointment_match module_globals _ _ info E He).
      split; [done|]. split; [|by intros v [= <-]].
      split; [by exists info|by eexists].
    + rewrite (validate_patient_appointment_mismatch module_globals _ _ info E Hne).
      split; [done|]. split; [|by intros v [=]].
      split; [by intros [v [=]]|]. intros (info' & [= <-] & He). done.
  - rewrite (validate_patient_appointment_None module_globals _ _ E).
    split; [|split; [|by intros v [=]]].
    + intros _. split; [done|]. intros p [= Heq].
      change ("" +:+ ?a = "" +:+ ?b) with (a = b) in Heq.
      apply (inj (String.app appointment_id)) in Heq.
      discriminate Heq.
    + split; [by intros [v [=]]|]. by intros (info & [=] & _).
Qed.

(** ** [check_doctor_availability] *)

Lemma check_doctor_availability_returns (g : Globals) (doctor_name : string) :
  ∃ s, check_doctor_availability doctor_name g = (Returned s, g).
Proof.
  unfold check_doctor_availability. rewrite bind_global.
  destruct (default [] (g_doctor_availability g !! doctor_name));
    by eexists.
Qed.

Lemma check_doctor_availability_days (g : Globals) (doctor_name : string)
    (d : string) (days : list string) :
  g_doctor_availability g !! doctor_name = Some (d :: days) →
  check_doctor_availability doctor_name g =
  (Returned (doctor_name +:+ " is available on: " +:+ join ", " (d :: days)), g).
Proof.
  intros H. unfold check_doctor_availability. rewrite bind_global.
  by rewrite H.
Qed.

Lemma check_doctor_availability_unregistered (g : Globals)
    (doctor_name : string) :
  g_doctor_availability g !! doctor_name = None →
  check_doctor_availability doctor_name g =
  (Returned ("No availability information found for " +:+ doctor_name), g).
Proof.
  intros H. unfold check_doctor_availability. rewrite bind_global.
  by rewrite H.
Qed.

(** C5: [check_doctor_availability] returns a string for every name and
    never raises.  For "Dr. Smith" the string lists the configured days
    Monday, Wednesday, Friday and no others; for a name that the
    availability table does not register it is the "No availability
    information found" text. *)
Theorem check_doctor_availability_total :
  (∀ (g : Globals) (doctor_name : string),
     ∃ s, check_doctor_availability doctor_name g = (Returned s, g))
  ∧ doctor_availability !! "Dr. Smith" = Some ["Monday"; "Wednesday"; "Friday"]
  ∧ (check_doctor_availability "Dr. Smith" module_globals).1 =
      Returned ("Dr. Smith is available on: "
                +:+ join ", " ["Monday"; "Wednesday"; "Friday"])
  ∧ join ", " ["Monday"; "Wednesday"; "Friday"] = "Monday, Wednesday, Friday"
  ∧ (∀ doctor_name : string,
       doctor_availability !! doctor_name = None →
       (check_doctor_availability doctor_name module_globals).1 =
         Returned ("No availability information found for " +:+ doctor_name)).
Proof.
  split; [|split; [|split; [|split]]].
  - intros g doctor_name. apply check_doctor_availability_returns.
  - unfold doctor_availability. apply lookup_insert_eq.
  - rewrite (check_doctor_availability_days module_globals "Dr. Smith"
               "Monday" ["Wednesday"; "Friday"]); [reflexivity|].
    unfold module_globals, doctor_availability, g_doctor_availability.
    apply lookup_insert_eq.
  - reflexivity.
  - intros doctor_name H.
    by rewrite (check_doctor_availability_unregistered module_globals _ H).
Qed.

(** ** [get_appointment_details] *)

Lemma get_appointment_details_empty (g : Globals) (ctx : RunContext) :
  appointments (deps ctx) = None ∨ appointments (deps ctx) = Some [] →
  get_appointment_details ctx g = (Returned "No appointments found", g).
Proof. unfold get_appointment_details. by intros [-> | ->]. Qed.

Lemma get_appointment_details_head (g : Globals) (ctx : RunContext)
    (a : Appointment) (rest : list Appointment) :
  appointments (deps ctx) = Some (a :: rest) →
  get_appointment_details ctx g =
  (let details : PyDict := default ∅ (g_appointment_db g !! appointment_id a) in
   Returned ("Appointment " +:+ appointment_id a +:+ ": "
             +:+ py_str (details !! "date") +:+ " at "
             +:+ py_str (details !! "time") +:+ " with "
             +:+ py_str (details !! "doctor") +:+ " in "
             +:+ py_str (details !! "department")),
   g).
Proof. unfold get_appointment_details. by intros ->. Qed.

Lemma appointment_db_lookup_Some (id : string) (entry : PyDict) :
  appointment_db !! id = Some entry →
  ∃ d t doc dep,
    entry !! "date" = Some d ∧ entry !! "time" = Some t ∧
    entry !! "doctor" = Some doc ∧ entry !! "department" = Some dep.
Proof.
  unfold appointment_db. intros H.
  apply lookup_insert_Some in H as [[_ <-]|[_ H]].
  { eexists _, _, _, _. repeat split; vm_compute; reflexivity. }
  apply lookup_insert_Some in H as [[_ <-]|[_ H]].
  { eexists _, _, _, _. repeat split; vm_compute; reflexivity. }
  by rewrite lookup_empty in H.
Qed.

(** C8: for a patient record with a non-empty appointment list,
    [get_appointment_details] returns the formatted description of the
    first appointment, whatever follows it in the list: the appointment's
    id, then the date, time, doctor and department that the appointment
    table holds under that id. *)
Theorem get_appointment_details_first_appointment (ctx : RunContext)
    (a : Appointment) (rest : list Appointment) :
  appointments (deps ctx) = Some (a :: rest) →
  let r := (get_appointment_details ctx module_globals).1 in
  let details : PyDict := default ∅ (appointment_db !! appointment_id a) in
  r = Returned ("Appointment " +:+ appointment_id a +:+ ": "
                +:+ py_str (details !! "date") +:+ " at "
                +:+ py_str (details !! "time") +:+ " with "
                +:+ py_str (details !! "doctor") +:+ " in "
                +:+ py_str (details !! "department"))
  ∧ (∀ entry, appointment_db !! appointment_id a = Some entry →
       ∃ d t doc dep,
         entry !! "date" = Some d ∧ entry !! "time" = Some t ∧
         entry !! "doctor" = Some doc ∧ entry !! "department" = Some dep ∧
         r = Returned ("Appointment " +:+ appointment_id a +:+ ": " +:+ d
                       +:+ " at " +:+ t +:+ " with " +:+ doc +:+ " in " +:+ dep)).
Proof.
  intros H r details. subst r details.
  rewrite (get_appointment_details_head module_globals ctx a rest H).
  change (g_appointment_db module_globals) with appointment_db.
  split; [reflexivity|].
  intros entry E.
  destruct (appointment_db_lookup_Some _ _ E) as (d & t & doc & dep & Hd & Ht & Hdoc & Hdep).
  exists d, t, doc, dep. repeat (split; [assumption|]).
  cbv zeta. rewrite E. cbn [from_option fst]. unfold id.
  by rewrite Hd, Ht, Hdoc, Hdep.
Qed.

Lemma get_appointment_details_first_appointment_witness :
  (get_appointment_details {| deps := patient |} module_globals).1 =
  Returned "Appointment A001: 2024-12-15 at 10:00 AM with Dr. Smith in Cardiology".
Proof.
  destruct (get_appointment_details_first_appointment {| deps := patient |}
    {| appointment_id := "A001";
       date := {| year := 2024; month := 12; day := 15 |};
       time := "10:00 AM"; doctor_name := "Dr. Smith";
       department := "Cardiology"; status := "scheduled" |} [] eq_refl)
    as [H _].
  rewrite H. vm_compute. reflexivity.
Defined.

(** C9: [get_appointment_details] returns a string in every case and
    raises nothing.  Without appointments ([None] or an empty list) the
    string is "No appointments found"; when the first appointment's id is
    not a key of the appointment table, the date, time, doctor and
    department positions of the formatted string all read "None". *)
Theorem get_appointment_details_never_raises (ctx : RunContext) :
  (∀ g : Globals, ∃ s, get_appointment_details ctx g = (Returned s, g))
  ∧ (appointments (deps ctx) = None ∨ appointments (deps ctx) = Some [] →
     (get_appointment_details ctx module_globals).1 =
       Returned "No appointments found")
  ∧ (∀ a rest, appointments (deps ctx) = Some (a :: rest) →
       appointment_db !! appointment_id a = None →
       (get_appointment_details ctx module_globals).1 =
         Returned ("Appointment " +:+ appointment_id a
                   +:+ ": None at None with None in None")).
Proof.
  split; [|split].
  - intros g. destruct (appointments (deps ctx)) as [[|a rest]|] eqn:E.
    + rewrite get_appointment_details_empty by auto. by eexists.
    + rewrite (get_appointment_details_head g ctx a rest E). by eexists.
    + rewrite get_appointment_details_empty by auto. by eexists.
  - intros H. by rewrite get_appointment_details_empty.
  - intros a rest H E.
    rewrite (get_appointment_details_head module_globals ctx a rest H).
    change (g_appointment_db module_globals) with appointment_db.
    cbv zeta. rewrite E. reflexivity.
Qed.

(** ** Computations that leave the globals as they found them *)

Lemma read_only_ret {A} (a : A) : read_only (mret a : Py A).
Proof. by intros g. Qed.

Lemma read_only_raise {A} (e : Raised) : read_only (raise e : Py A).
Proof. by intros g. Qed.

Lemma read_only_global {A} (name : Globals → A) : read_only (global name).
Proof. by intros g. Qed.

Lemma read_only_bind {A B} (m : Py A) (k : A → Py B) :
  read_only m → (∀ a, read_only (k a)) → read_only (m ≫= k).
Proof.
  intros Hm Hk g. unfold mbind, Py_bind. specialize (Hm g).
  destruct (m g) as [[a|e] g']; simpl in *; subst g'; [apply Hk|done].
Qed.

Lemma read_only_subscript (d : PyDict) (k : string) : read_only (subscript d k).
Proof.
  unfold subscript. destruct (d !! k); [apply read_only_ret|apply read_only_raise].
Qed.

Create HintDb read_only.
#[local] Hint Resolve read_only_ret read_only_raise read_only_global
  read_only_subscript : read_only.

Ltac read_only_step :=
  first [ apply read_only_bind; [|intros ?] | solve [auto with read_only] ].

Lemma read_only_get_appointment_details (ctx : RunContext) :
  read_only (get_appointment_details ctx).
Proof.
  unfold get_appointment_details.
  destruct (appointments (deps ctx)) as [[|a rest]|]; repeat read_only_step.
Qed.

Lemma read_only_check_doctor_availability (doctor_name : string) :
  read_only (check_doctor_availability doctor_name).
Proof.
  unfold check_doctor_availability. read_only_step; [read_only_step|].
  destruct (default [] (a !! doctor_name)); read_only_step.
Qed.

Lemma read_only_get_appointment_status (appointment_id : string) :
  read_only (get_appointment_status appointment_id).
Proof.
  unfold get_appointment_status. read_only_step; [read_only_step|].
  destruct (a !! appointment_id); repeat read_only_step.
Qed.

Lemma read_only_validate_patient_appointment (appointment_id patient_id : string) :
  read_only (validate_patient_appointment appointment_id patient_id).
Proof.
  unfold validate_patient_appointment. read_only_step; [read_only_step|].
  destruct (a !! appointment_id); [case_decide|]; read_only_step.
Qed.

Lemma read_only_invoke (c : ToolCall) : read_only (invoke c).
Proof.
  destruct c; simpl;
    auto using read_only_get_appointment_details,
      read_only_check_doctor_availability, read_only_get_appointment_status,
      read_only_validate_patient_appointment.
Qed.

Lemma invoke_all_frame (calls : list ToolCall) (g : Globals) :
  (invoke_all calls g).2 = g.
Proof.
  revert g. induction calls as [|c rest IH]; intros g; [reflexivity|].
  cbn [invoke_all]. pose proof (read_only_invoke c g) as Hc.
  destruct (invoke c g) as [r g']. simpl in Hc. subst g'.
  specialize (IH g). by destruct (invoke_all rest g).
Qed.

Lemma invoke_all_length (calls : list ToolCall) (g : Globals) :
  length (invoke_all calls g).1 = length calls.
Proof.
  revert g. induction calls as [|c rest IH]; intros g; [reflexivity|].
  cbn [invoke_all]. destruct (invoke c g) as [r g'].
  specialize (IH g'). destruct (invoke_all rest g'). simpl in *. by rewrite IH.
Qed.

(** C7: the lookup tables are read-only.  Whatever sequence of tool
    invocations the host performs, retries included, and whether a call
    returns or raises, every call is answered and the globals after the
    sequence are the globals before it; started from the module's tables,
    the three tables are still the ones the module defined. *)
Theorem tables_never_mutated (calls : list ToolCall) :
  (∀ g : Globals, (invoke_all calls g).2 = g)
  ∧ length (invoke_all calls module_globals).1 = length calls
  ∧ g_appointment_db (invoke_all calls module_globals).2 = appointment_db
  ∧ g_doctor_availability (invoke_all calls module_globals).2
      = doctor_availability
  ∧ g_comprehensive_appointment_db (invoke_all calls module_globals).2
      = comprehensive_appointment_db.
Proof.
  split; [apply invoke_all_frame|]. split; [apply invoke_all_length|].
  by rewrite !invoke_all_frame.
Qed.

(** ** [add_patient_context] *)



(** A renderer that assigns to the record makes the step modify it. *)
Lemma add_patient_context_clearing_renderer :
  appointments <$> (ps_objects
    (add_patient_context clearing_renderer {| deps_ref := 0 |} patient_state).2
    !! 0) = Some None
  ∧ appointments <$> (ps_objects patient_state !! 0) ≠ Some None.
Proof. split; [vm_compute; reflexivity|vm_compute; discriminate]. Qed.




(** ** [HealthcareResponseModel] *)

Lemma validate_str_inr (raw : gmap string Json) (field s : string) :
  validate_str raw field = inr s → raw !! field = Some (JStr s).
Proof.
  unfold validate_str. destruct (raw !! field) as [[]|]; congruence.
Qed.

Lemma validate_bool_inr (as_bool : BoolReading) (raw : gmap string Json)
    (field : string) (b : bool) :
  validate_bool as_bool raw field = inr b →
  ∃ v, raw !! field = Some v ∧ as_bool v = Some b.
Proof.
  unfold validate_bool. destruct (raw !! field) as [v|]; [|discriminate].
  destruct (as_bool v) as [b'|] eqn:E; [|discriminate].
  intros [= <-]. by exists v.
Qed.

Lemma model_validate_inr (as_bool : BoolReading) (raw : gmap string Json)
    (r : HealthcareResponseModel) :
  model_validate as_bool raw = inr r →
  validate_str raw "response" = inr (response r) ∧
  validate_str raw "urgency_level" = inr (urgency_level r) ∧
  validate_bool as_bool raw "appointment_needed" = inr (appointment_needed r) ∧
  validate_bool as_bool raw "follow_up_required" = inr (follow_up_required r) ∧
  validate_optional_str raw "department_referral" = inr (department_referral r).
Proof.
  unfold model_validate.
  destruct (validate_str raw "response"); [discriminate|].
  destruct (validate_str raw "urgency_level"); [discriminate|].
  destruct (validate_bool as_bool raw "appointment_needed"); [discriminate|].
  destruct (validate_bool as_bool raw "follow_up_required"); [discriminate|].
  destruct (validate_optional_str raw "department_referral"); [discriminate|].
  by intros [= <-].
Qed.

Lemma validate_str_insert_eq (raw : gmap string Json) (field s : string) :
  validate_str (<[field := JStr s]> raw) field = inr s.
Proof. unfold validate_str. by rewrite lookup_insert_eq. Qed.

Lemma validate_str_insert_ne (raw : gmap string Json) (field other : string)
    (v : Json) :
  other ≠ field →
  validate_str (<[other := v]> raw) field = validate_str raw field.
Proof. intros H. unfold validate_str. by rewrite lookup_insert_ne. Qed.

Lemma validate_bool_insert_ne (as_bool : BoolReading) (raw : gmap string Json)
    (field other : string) (v : Json) :
  other ≠ field →
  validate_bool as_bool (<[other := v]> raw) field
  = validate_bool as_bool raw field.
Proof. intros H. unfold validate_bool. by rewrite lookup_insert_ne. Qed.

Lemma validate_optional_str_insert_ne (raw : gmap string Json)
    (field other : string) (v : Json) :
  other ≠ field →
  validate_optional_str (<[other := v]> raw) field
  = validate_optional_str raw field.
Proof. intros H. unfold validate_optional_str. by rewrite lookup_insert_ne. Qed.

Lemma critical_not_a_label : "critical" ∉ urgency_labels.
Proof.
  unfold urgency_labels. intros H.
  repeat (apply elem_of_cons in H as [H|H]; [discriminate H|]).
  by apply elem_of_nil in H.
Qed.

Lemma validate_bool_JBool (as_bool : BoolReading) (raw : gmap string Json)
    (field : string) (b : bool) :
  reads_booleans as_bool → raw !! field = Some (JBool b) →
  validate_bool as_bool raw field = inr b.
Proof. intros Hb H. unfold validate_bool. by rewrite H, Hb. Qed.

Lemma critical_reply_accepted (as_bool : BoolReading) :
  reads_booleans as_bool →
  model_validate as_bool critical_reply =
  inr {| response := "Please call the front desk.";
         urgency_level := "critical";
         appointment_needed := true;
         follow_up_required := false;
         department_referral := None |}.
Proof.
  intros Hb. unfold model_validate.
  rewrite (validate_bool_JBool as_bool critical_reply "appointment_needed" true Hb)
    by (vm_compute; reflexivity).
  rewrite (validate_bool_JBool as_bool critical_reply "follow_up_required" false Hb)
    by (vm_compute; reflexivity).
  reflexivity.
Qed.

Lemma strict_bool_reads_booleans : reads_booleans strict_bool.
Proof. by intros b. Qed.

(** C4, as the specification states it, fails: a reply that has every
    field well typed and "critical" as its urgency is accepted, and
    "critical" is none of routine, urgent, emergency.  So it is not true
    that every accepted reply has its urgency among the three labels. *)
Lemma urgency_outside_labels_is_accepted :
  (∃ r, model_validate strict_bool critical_reply = inr r ∧
        urgency_level r = "critical" ∧ urgency_level r ∉ urgency_labels)
  ∧ ¬ (∀ as_bool raw r, reads_booleans as_bool →
         model_validate as_bool raw = inr r →
         urgency_level r ∈ urgency_labels).
Proof.
  split.
  - eexists. split; [apply critical_reply_accepted, strict_bool_reads_booleans|].
    split; [reflexivity|apply critical_not_a_label].
  - intros H. apply critical_not_a_label.
    apply (H strict_bool critical_reply _ strict_bool_reads_booleans
             (critical_reply_accepted _ strict_bool_reads_booleans)).
Qed.

(** C4, amended: every accepted reply was given its four required fields,
    [response] and [urgency_level] as the very strings it carries and
    [appointment_needed] and [follow_up_required] as values that read as
    the booleans it carries.  The urgency is any string: replacing the
    urgency of an accepted reply by an arbitrary string gives an accepted
    reply with that urgency. *)
Theorem model_validate_required_fields (as_bool : BoolReading)
    (raw : gmap string Json) (r : HealthcareResponseModel) :
  model_validate as_bool raw = inr r →
  (raw !! "response" = Some (JStr (response r)) ∧
   raw !! "urgency_level" = Some (JStr (urgency_level r)) ∧
   (∃ v, raw !! "appointment_needed" = Some v ∧
         as_bool v = Some (appointment_needed r)) ∧
   (∃ v, raw !! "follow_up_required" = Some v ∧
         as_bool v = Some (follow_up_required r)))
  ∧ ∀ u : string,
      model_validate as_bool (<["urgency_level" := JStr u]> raw) =
      inr {| response := response r;
             urgency_level := u;
             appointment_needed := appointment_needed r;
             follow_up_required := follow_up_required r;
             department_referral := department_referral r |}.
Proof.
  intros (Hr & Hu & Ha & Hf & Hd)%model_validate_inr. split.
  - split_and!; eauto using validate_str_inr, validate_bool_inr.
  - intros u. unfold model_validate.
    rewrite validate_str_insert_ne, Hr by discriminate.
    rewrite validate_str_insert_eq.
    rewrite validate_bool_insert_ne, Ha by discriminate.
    rewrite validate_bool_insert_ne, Hf by discriminate.
    by rewrite validate_optional_str_insert_ne, Hd by discriminate.
Qed.

Lemma model_validate_required_fields_witness :
  (critical_reply !! "response" = Some (JStr "Please call the front desk.") ∧
   critical_reply !! "urgency_level" = Some (JStr "critical") ∧
   (∃ v, critical_reply !! "appointment_needed" = Some v ∧
         strict_bool v = Some true) ∧
   (∃ v, critical_reply !! "follow_up_required" = Some v ∧
         strict_bool v = Some false))
  ∧ ∀ u : string,
      model_validate strict_bool (<["urgency_level" := JStr u]> critical_reply) =
      inr {| response := "Please call the front desk.";
             urgency_level := u;
             appointment_needed := true;
             follow_up_required := false;
             department_referral := None |}.
Proof.
  apply (model_validate_required_fields strict_bool critical_reply
           {| response := "Please call the front desk.";
              urgency_level := "critical";
              appointment_needed := true;
              follow_up_required := false;
              department_referral := None |}).
  vm_compute. reflexivity.
Defined.

(** ** The retry loop *)

Section RetryLoop.

Import Retry.

Variable max_retries : nat.
Variable lookup : list string → Outcome string.


Lemma run_add (a b : nat) (s : RunState) :
  run max_retries lookup (a + b) s
  = run max_retries lookup b (run max_retries lookup a s).
Proof. revert s. induction a as [|a IH]; intros s; [reflexivity|]. apply IH. Qed.



End RetryLoop.




(** * Further properties of the tools *)

(** ** Binding a finished computation *)

Lemma bind_ret {A B} (a : A) (k : A → Py B) (g : Globals) :
  (mret a ≫= k) g = k a g.
Proof. reflexivity. Qed.

Lemma bind_raise {A B} (e : Raised) (k : A → Py B) (g : Globals) :
  (raise e ≫= k) g = (Raise e, g).
Proof. reflexivity. Qed.

(** ** [get_appointment_status] on any table *)

Lemma get_appointment_status_entry (g : Globals) (appointment_id : string)
    (info : PyDict) :
  g_comprehensive_appointment_db g !! appointment_id = Some info →
  get_appointment_status appointment_id g
  = (status_of_entry appointment_id info, g).
Proof.
  intros H. unfold get_appointment_status, status_of_entry.
  rewrite bind_global, H. unfold subscript.
  destruct (info !! "date"); [rewrite bind_ret|by rewrite bind_raise].
  destruct (info !! "time"); [rewrite bind_ret|by rewrite bind_raise].
  destruct (info !! "doctor"); [rewrite bind_ret|by rewrite bind_raise].
  destruct (info !! "department"); [rewrite bind_ret|by rewrite bind_raise].
  destruct (info !! "status"); [by rewrite bind_ret|by rewrite bind_raise].
Qed.

Lemma status_of_entry_complete (appointment_id : string) (info : PyDict) :
  (∀ k, k ∈ status_keys → is_Some (info !! k)) →
  ∃ v, status_of_entry appointment_id info = Returned v.
Proof.
  intros Hall. unfold status_of_entry.
  destruct (Hall "date") as [d ->]; [set_solver|].
  destruct (Hall "time") as [t ->]; [set_solver|].
  destruct (Hall "doctor") as [doc ->]; [set_solver|].
  destruct (Hall "department") as [dep ->]; [set_solver|].
  destruct (Hall "status") as [st ->]; [set_solver|].
  by eexists.
Qed.

Lemma status_of_entry_raises (appointment_id : string) (info : PyDict)
    (e : Raised) :
  status_of_entry appointment_id info = Raise e →
  ∃ k, e = KeyError k ∧ k ∈ status_keys ∧ info !! k = None.
Proof.
  unfold status_of_entry, status_keys.
  destruct (info !! "date") eqn:Hd;
    [|intros [= <-]; exists "date"; split_and!; [done|set_solver|done]].
  destruct (info !! "time") eqn:Ht;
    [|intros [= <-]; exists "time"; split_and!; [done|set_solver|done]].
  destruct (info !! "doctor") eqn:Hdoc;
    [|intros [= <-]; exists "doctor"; split_and!; [done|set_solver|done]].
  destruct (info !! "department") eqn:Hdep;
    [|intros [= <-]; exists "department"; split_and!; [done|set_solver|done]].
  destruct (info !! "status") eqn:Hst;
    [|intros [= <-]; exists "status"; split_and!; [done|set_solver|done]].
  discriminate.
Qed.

(** X1: whatever the comprehensive table holds, an entry that lacks one
    of the five keys of the status text makes [get_appointment_status]
    raise [KeyError] for a key the entry lacks; it neither returns nor
    asks for a retry.  With all five keys present it returns. *)
Theorem get_appointment_status_malformed_entry (g : Globals)
    (appointment_id : string) (info : PyDict) :
  g_comprehensive_appointment_db g !! appointment_id = Some info →
  ((∃ k, k ∈ status_keys ∧ info !! k = None) →
     ∃ k', k' ∈ status_keys ∧ info !! k' = None ∧
           get_appointment_status appointment_id g = (Raise (KeyError k'), g))
  ∧ ((∀ k, k ∈ status_keys → is_Some (info !! k)) →
     ∃ v, get_appointment_status appointment_id g = (Returned v, g)).
Proof.
  intros H. rewrite (get_appointment_status_entry g _ info H). split.
  - intros (k & Hk & Hnone).
    destruct (status_of_entry appointment_id info) as [v|e] eqn:E.
    + exfalso. revert E. unfold status_of_entry, status_keys in *.
      repeat (apply elem_of_cons in Hk as [->|Hk]; [rewrite Hnone; by repeat case_match|]).
      by apply elem_of_nil in Hk.
    + apply status_of_entry_raises in E as (k' & -> & Hk' & Hn'). by exists k'.
  - intros Hall. destruct (status_of_entry_complete appointment_id info Hall)
      as [v ->]. by exists v.
Qed.

Lemma get_appointment_status_malformed_entry_witness :
  ∃ k', k' ∈ status_keys ∧
    (<["date" := "2025-01-07"]> (∅ : PyDict)) !! k' = None ∧
    get_appointment_status "APT-11111"
      (with_comprehensive
         (<["APT-11111" := <["date" := "2025-01-07"]> ∅]> ∅) module_globals)
    = (Raise (KeyError k'),
       with_comprehensive
         (<["APT-11111" := <["date" := "2025-01-07"]> ∅]> ∅) module_globals).
Proof.
  apply (get_appointment_status_malformed_entry
           (with_comprehensive
              (<["APT-11111" := <["date" := "2025-01-07"]> ∅]> ∅) module_globals)
           "APT-11111" (<["date" := "2025-01-07"]> ∅)).
  - vm_compute. reflexivity.
  - exists "status". split; [|vm_compute; reflexivity].
    unfold status_keys. set_solver.
Defined.

(** X2: [get_appointment_status] performs no ownership check.  Writing
    any other [patient_id] into the entry of an appointment changes
    nothing of what the call for that appointment returns or raises. *)
Theorem get_appointment_status_ignores_owner (g : Globals)
    (appointment_id owner : string) (info : PyDict) :
  g_comprehensive_appointment_db g !! appointment_id = Some info →
  (get_appointment_status appointment_id
     (with_comprehensive
        (<[appointment_id := <["patient_id" := owner]> info]>
           (g_comprehensive_appointment_db g)) g)).1
  = (get_appointment_status appointment_id g).1.
Proof.
  intros H.
  rewrite (get_appointment_status_entry g _ info H).
  rewrite (get_appointment_status_entry _ _ (<["patient_id" := owner]> info))
    by apply lookup_insert_eq.
  cbn [fst]. unfold status_of_entry.
  by rewrite !lookup_insert_ne by discriminate.
Qed.

Lemma get_appointment_status_ignores_owner_witness :
  (get_appointment_status "APT-67890"
     (with_comprehensive
        (<["APT-67890" := <["patient_id" := "P001"]>
           (<["date" := "2024-12-20"]> (<["time" := "2:30 PM"]>
           (<["doctor" := "Dr. Johnson"]> (<["department" := "Dermatology"]>
           (<["status" := "confirmed"]> (<["patient_id" := "P002"]> ∅))))))]>
           (g_comprehensive_appointment_db module_globals)) module_globals)).1
  = (get_appointment_status "APT-67890" module_globals).1.
Proof.
  apply (get_appointment_status_ignores_owner module_globals "APT-67890" "P001").
  vm_compute. reflexivity.
Defined.

(** ** [validate_patient_appointment] on any table *)

Lemma validate_patient_appointment_Returned (g : Globals)
    (appointment_id patient_id v : string) :
  (validate_patient_appointment appointment_id patient_id g).1 = Returned v →
  ∃ info, g_comprehensive_appointment_db g !! appointment_id = Some info ∧
          info !! "patient_id" = Some patient_id.
Proof.
  destruct (g_comprehensive_appointment_db g !! appointment_id) as [info|] eqn:E.
  - destruct (decide (info !! "patient_id" = Some patient_id)) as [He|Hne].
    + intros _. by exists info.
    + by rewrite (validate_patient_appointment_mismatch g _ _ info E Hne).
  - by rewrite (validate_patient_appointment_None g _ _ E).
Qed.

(** X3: an appointment has at most one patient for whom
    [validate_patient_appointment] succeeds: two successful validations
    of the same appointment id were made for the same patient id. *)
Theorem validate_patient_appointment_single_owner (g : Globals)
    (appointment_id p1 p2 v1 v2 : string) :
  (validate_patient_appointment appointment_id p1 g).1 = Returned v1 →
  (validate_patient_appointment appointment_id p2 g).1 = Returned v2 →
  p1 = p2.
Proof.
  intros (i1 & E1 & O1)%validate_patient_appointment_Returned
         (i2 & E2 & O2)%validate_patient_appointment_Returned.
  congruence.
Qed.

Lemma validate_patient_appointment_single_owner_witness : "P002" = "P002".
Proof.
  apply (validate_patient_appointment_single_owner module_globals "APT-67890"
           "P002" "P002"
           "Appointment APT-67890 verified for patient P002"
           "Appointment APT-67890 verified for patient P002").
  - vm_compute. reflexivity.
  - vm_compute. reflexivity.
Defined.

Lemma not_found_hint_is_not_the_owner_hint (appointment_id patient_id : string) :
  "Appointment " +:+ appointment_id
    +:+ " not found. Please verify the appointment ID format."
  ≠ "Appointment " +:+ appointment_id +:+ " does not belong to patient "
    +:+ patient_id +:+ ". "
    +:+ "This is a HIPAA violation. Please verify patient identity before providing appointment information.".
Proof.
  intros Heq. apply (inj (String.app "Appointment ")) in Heq.
  apply (inj (String.app appointment_id)) in Heq. discriminate Heq.
Qed.

(** X4: the two tools of [agent5] agree on which appointments exist,
    whatever the table holds: [get_appointment_status] asks for a retry
    exactly for the ids outside the table, and these are exactly the ids
    for which [validate_patient_appointment] raises its "not found"
    retry.  On the module's table a validated appointment can always be
    looked up. *)
Theorem agent5_tools_agree_on_existence (g : Globals)
    (appointment_id patient_id : string) :
  ((∃ hint, (get_appointment_status appointment_id g).1
            = Raise (ModelRetry hint))
   ↔ g_comprehensive_appointment_db g !! appointment_id = None)
  ∧ ((validate_patient_appointment appointment_id patient_id g).1
     = Raise (ModelRetry ("Appointment " +:+ appointment_id
         +:+ " not found. Please verify the appointment ID format."))
     ↔ g_comprehensive_appointment_db g !! appointment_id = None)
  ∧ (∀ v, (validate_patient_appointment appointment_id patient_id
             module_globals).1 = Returned v →
          ∃ s, (get_appointment_status appointment_id module_globals).1
               = Returned s).
Proof.
  split; [|split].
  - split.
    + intros [hint Hr].
      destruct (g_comprehensive_appointment_db g !! appointment_id)
        as [info|] eqn:E; [|done].
      rewrite (get_appointment_status_entry g _ info E) in Hr.
      apply status_of_entry_raises in Hr as (k & [=] & _).
    + intros E. rewrite (get_appointment_status_None g _ E). by eexists.
  - split.
    + intros Hr.
      destruct (g_comprehensive_appointment_db g !! appointment_id)
        as [info|] eqn:E; [|done].
      destruct (decide (info !! "patient_id" = Some patient_id)) as [He|Hne].
      * by rewrite (validate_patient_appointment_match g _ _ info E He) in Hr.
      * rewrite (validate_patient_appointment_mismatch g _ _ info E Hne) in Hr.
        assert (Hm : ∀ a b : string,
          Raise (A:=string) (ModelRetry a) = Raise (ModelRetry b) → a = b)
          by (by intros a b [= ->]).
        apply Hm in Hr. symmetry in Hr.
        by apply not_found_hint_is_not_the_owner_hint in Hr.
    + intros E. by rewrite (validate_patient_appointment_None g _ _ E).
  - intros v (info & E & _)%validate_patient_appointment_Returned.
    change (g_comprehensive_appointment_db module_globals)
      with comprehensive_appointment_db in E.
    destruct (comprehensive_entry_fields _ _ E)
      as (d & t & doc & dep & st & Hd & Ht & Hdoc & Hdep & Hst).
    rewrite (get_appointment_status_Some module_globals _ _ _ _ _ _ _
               E Hd Ht Hdoc Hdep Hst).
    by eexists.
Qed.

(** X5: an entry without a [patient_id] belongs to nobody: for such an
    appointment [validate_patient_appointment] raises the HIPAA retry
    for every patient id. *)
Theorem validate_patient_appointment_ownerless (g : Globals)
    (appointment_id : string) (info : PyDict) :
  g_comprehensive_appointment_db g !! appointment_id = Some info →
  info !! "patient_id" = None →
  ∀ patient_id, ∃ hint,
    validate_patient_appointment appointment_id patient_id g
    = (Raise (ModelRetry hint), g)
    ∧ contains hint "This is a HIPAA violation".
Proof.
  intros H Hnone patient_id.
  rewrite (validate_patient_appointment_mismatch g _ patient_id info H)
    by (rewrite Hnone; discriminate).
  eexists. split; [reflexivity|].
  do 4 apply contains_skip.
  exact (contains_literal ". " "This is a HIPAA violation"
    ". Please verify patient identity before providing appointment information.").
Qed.

Lemma validate_patient_appointment_ownerless_witness :
  ∃ hint,
    validate_patient_appointment "A001" "P001"
      (with_comprehensive appointment_db module_globals)
    = (Raise (ModelRetry hint),
       with_comprehensive appointment_db module_globals)
    ∧ contains hint "This is a HIPAA violation".
Proof.
  apply (validate_patient_appointment_ownerless
           (with_comprehensive appointment_db module_globals) "A001"
           (<["date" := "2024-12-15"]> (<["time" := "10:00 AM"]>
           (<["doctor" := "Dr. Smith"]> (<["department" := "Cardiology"]>
           (<["status" := "scheduled"]> ∅)))))).
  - vm_compute. reflexivity.
  - vm_compute. reflexivity.
Defined.

(** X6: [validate_patient_appointment] reads the entry with [get] only:
    whatever the table holds, it returns or raises [ModelRetry], and
    never raises [KeyError]. *)
Theorem validate_patient_appointment_never_KeyError (g : Globals)
    (appointment_id patient_id : string) :
  (∃ v, validate_patient_appointment appointment_id patient_id g
        = (Returned v, g))
  ∨ (∃ hint, validate_patient_appointment appointment_id patient_id g
             = (Raise (ModelRetry hint), g)).
Proof.
  destruct (g_comprehensive_appointment_db g !! appointment_id) as [info|] eqn:E.
  - destruct (decide (info !! "patient_id" = Some patient_id)) as [He|Hne].
    + left. rewrite (validate_patient_appointment_match g _ _ info E He).
      by eexists.
    + right. rewrite (validate_patient_appointment_mismatch g _ _ info E Hne).
      by eexists.
  - right. rewrite (validate_patient_appointment_None g _ _ E). by eexists.
Qed.

(** X7: on the module's table every id for which
    [get_appointment_status] returns has the format its hint asks for,
    "APT-" followed by five characters. *)
Theorem get_appointment_status_known_ids_have_format (appointment_id v : string) :
  (get_appointment_status appointment_id module_globals).1 = Returned v →
  ∃ digits, appointment_id = "APT-" +:+ digits ∧ String.length digits = 5.
Proof.
  intros Hr.
  destruct (comprehensive_appointment_db !! appointment_id) as [info|] eqn:E.
  - apply comprehensive_lookup_Some in E as [[-> _]|[-> _]].
    + by exists "12345".
    + by exists "67890".
  - by rewrite (get_appointment_status_None module_globals _ E) in Hr.
Qed.

Lemma get_appointment_status_known_ids_have_format_witness :
  ∃ digits, "APT-12345" = "APT-" +:+ digits ∧ String.length digits = 5.
Proof.
  apply (get_appointment_status_known_ids_have_format "APT-12345"
    "Appointment APT-12345: 2024-12-15 at 10:00 AM with Dr. Smith (Cardiology) - Status: scheduled").
  vm_compute. reflexivity.
Defined.

(** ** [check_doctor_availability] on any table *)

Lemma join_contains (sep : string) (items : list string) (x : string) :
  x ∈ items → contains (join sep items) x.
Proof.
  induction items as [|y rest IH]; intros Hx; [by apply elem_of_nil in Hx|].
  apply elem_of_cons in Hx as [->|Hx].
  - destruct rest; [apply contains_refl|apply contains_head].
  - destruct rest as [|z rest]; [by apply elem_of_nil in Hx|].
    change (join sep (y :: z :: rest))
      with (y +:+ sep +:+ join sep (z :: rest)).
    do 2 apply contains_skip. by apply IH.
Qed.

(** X8: whatever the availability table holds, a doctor registered with
    at least one day gets a text that starts with the doctor's name and
    contains every registered day; a doctor registered with an empty list
    of days gets the same text as a doctor who is not registered. *)
Theorem check_doctor_availability_lists_every_day (g : Globals)
    (doctor_name : string) :
  match g_doctor_availability g !! doctor_name with
  | Some (d :: days) =>
      ∃ text, check_doctor_availability doctor_name g = (Returned text, g)
        ∧ (∃ rest, text = doctor_name +:+ rest)
        ∧ ∀ day, day ∈ d :: days → contains text day
  | Some [] | None =>
      check_doctor_availability doctor_name g
      = (Returned ("No availability information found for " +:+ doctor_name), g)
  end.
Proof.
  destruct (g_doctor_availability g !! doctor_name) as [[|d days]|] eqn:E.
  - unfold check_doctor_availability. rewrite bind_global. by rewrite E.
  - rewrite (check_doctor_availability_days g _ d days E).
    eexists. split; [reflexivity|]. split; [by eexists|].
    intros day Hday. do 2 apply contains_skip. by apply join_contains.
  - by apply check_doctor_availability_unregistered.
Qed.

(** X9: every doctor that an entry of either appointment table names is
    registered in the availability table with at least one day, so the
    availability lookup for the doctor of a stored appointment always
    lists days. *)
Theorem appointment_doctors_are_registered (id doc : string) (info : PyDict) :
  appointment_db !! id = Some info
    ∨ comprehensive_appointment_db !! id = Some info →
  info !! "doctor" = Some doc →
  ∃ d days,
    doctor_availability !! doc = Some (d :: days)
    ∧ check_doctor_availability doc module_globals
      = (Returned (doc +:+ " is available on: " +:+ join ", " (d :: days)),
         module_globals).
Proof.
  intros Hin Hdoc.
  assert (Hcases : doc = "Dr. Smith" ∨ doc = "Dr. Johnson").
  { destruct Hin as [H|H].
    - unfold appointment_db in H.
      apply lookup_insert_Some in H as [[_ <-]|[_ H]].
      { left. vm_compute in Hdoc. congruence. }
      apply lookup_insert_Some in H as [[_ <-]|[_ H]].
      { right. vm_compute in Hdoc. congruence. }
      by rewrite lookup_empty in H.
    - unfold comprehensive_appointment_db in H.
      apply lookup_insert_Some in H as [[_ <-]|[_ H]].
      { left. vm_compute in Hdoc. congruence. }
      apply lookup_insert_Some in H as [[_ <-]|[_ H]].
      { right. vm_compute in Hdoc. congruence. }
      by rewrite lookup_empty in H. }
  destruct Hcases as [-> | ->].
  - exists "Monday", ["Wednesday"; "Friday"].
    assert (E : doctor_availability !! "Dr. Smith"
                = Some ["Monday"; "Wednesday"; "Friday"])
      by (vm_compute; reflexivity).
    split; [exact E|].
    exact (check_doctor_availability_days module_globals _ _ _ E).
  - exists "Tuesday", ["Thursday"].
    assert (E : doctor_availability !! "Dr. Johnson"
                = Some ["Tuesday"; "Thursday"])
      by (vm_compute; reflexivity).
    split; [exact E|].
    exact (check_doctor_availability_days module_globals _ _ _ E).
Qed.

Lemma appointment_doctors_are_registered_witness :
  ∃ d days,
    doctor_availability !! "Dr. Johnson" = Some (d :: days)
    ∧ check_doctor_availability "Dr. Johnson" module_globals
      = (Returned ("Dr. Johnson is available on: " +:+ join ", " (d :: days)),
         module_globals).
Proof.
  apply (appointment_doctors_are_registered "A002" "Dr. Johnson"
           (<["date" := "2024-12-20"]> (<["time" := "2:30 PM"]>
           (<["doctor" := "Dr. Johnson"]> (<["department" := "Dermatology"]>
           (<["status" := "confirmed"]> ∅)))))).
  - left. vm_compute. reflexivity.
  - vm_compute. reflexivity.
Defined.

(** ** [get_appointment_details] on any table *)

(** X10: [get_appointment_details] reads nothing of the patient record
    but the id of its first appointment: two records whose first
    appointments carry the same id get the same answer, whatever date,
    time, doctor, department or status the records themselves hold and
    whoever the patients are. *)
Theorem get_appointment_details_depends_on_first_id (g : Globals)
    (ctx1 ctx2 : RunContext) (a1 a2 : Appointment)
    (rest1 rest2 : list Appointment) :
  appointments (deps ctx1) = Some (a1 :: rest1) →
  appointments (deps ctx2) = Some (a2 :: rest2) →
  appointment_id a1 = appointment_id a2 →
  get_appointment_details ctx1 g = get_appointment_details ctx2 g.
Proof.
  intros H1 H2 Hid.
  rewrite (get_appointment_details_head g ctx1 a1 rest1 H1).
  rewrite (get_appointment_details_head g ctx2 a2 rest2 H2).
  by rewrite Hid.
Qed.

Lemma get_appointment_details_depends_on_first_id_witness :
  get_appointment_details {| deps := patient |} module_globals
  = get_appointment_details
      {| deps := {|
           patient_id := "P002"; name := "John Roe";
           email := "john.roe@email.com"; phone := "555-0199";
           medical_record_number := "MRN-000001";
           appointments := Some [ {|
             appointment_id := "A001";
             date := {| year := 2025; month := 1; day := 7 |};
             time := "4:00 PM"; doctor_name := "Dr. Williams";
             department := "Oncology"; status := "cancelled" |} ];
           insurance_provider := None |} |} module_globals.
Proof.
  eapply (get_appointment_details_depends_on_first_id module_globals);
    reflexivity.
Defined.

(** ** Sequences of tool calls *)

(** X11: a tool call is answered the same whatever calls were resolved
    before it: the outcomes of a sequence of calls are the outcomes of
    the calls made one by one on the initial globals.  Repeating a call
    with the same arguments therefore repeats its outcome. *)
Theorem invoke_all_pointwise (calls : list ToolCall) (g : Globals) :
  (invoke_all calls g).1 = (λ c, (invoke c g).1) <$> calls.
Proof.
  revert g. induction calls as [|c rest IH]; intros g; [reflexivity|].
  cbn [invoke_all fmap list_fmap]. pose proof (read_only_invoke c g) as Hc.
  destruct (invoke c g) as [r g']. simpl in Hc. subst g'.
  specialize (IH g). destruct (invoke_all rest g) as [rs g''].
  simpl in *. by rewrite IH.
Qed.

(** ** [HealthcareResponseModel]: the optional referral *)

(** X12: [department_referral] is optional in its value, not in its
    presence: taking the key away from an accepted reply makes the reply
    rejected for the missing field, and setting it to null gives an
    accepted reply without a referral. *)
Theorem department_referral_key_is_required (as_bool : BoolReading)
    (raw : gmap string Json) (r : HealthcareResponseModel) :
  model_validate as_bool raw = inr r →
  model_validate as_bool (delete "department_referral" raw)
    = inl (missing "department_referral")
  ∧ model_validate as_bool (<["department_referral" := JNull]> raw)
    = inr {| response := response r;
             urgency_level := urgency_level r;
             appointment_needed := appointment_needed r;
             follow_up_required := follow_up_required r;
             department_referral := None |}.
Proof.
  intros (Hr & Hu & Ha & Hf & Hd)%model_validate_inr.
  unfold model_validate. split.
  - unfold validate_str, validate_bool, validate_optional_str in *.
    rewrite !lookup_delete_ne by discriminate.
    rewrite Hr, Hu, Ha, Hf. by rewrite lookup_delete_eq.
  - rewrite !validate_str_insert_ne, Hr, Hu by discriminate.
    rewrite !validate_bool_insert_ne, Ha, Hf by discriminate.
    unfold validate_optional_str. by rewrite lookup_insert_eq.
Qed.

Lemma department_referral_key_is_required_witness :
  model_validate strict_bool (delete "department_referral" critical_reply)
    = inl (missing "department_referral")
  ∧ model_validate strict_bool
      (<["department_referral" := JNull]> critical_reply)
    = inr {| response := "Please call the front desk.";
             urgency_level := "critical";
             appointment_needed := true;
             follow_up_required := false;
             department_referral := None |}.
Proof.
  apply (department_referral_key_is_required strict_bool critical_reply
           {| response := "Please call the front desk.";
              urgency_level := "critical";
              appointment_needed := true;
              follow_up_required := false;
              department_referral := None |}).
  vm_compute. reflexivity.
Defined.
